(** * Condition model of the GardenerCluster resource

    A shallow embedding of [api/v1/gardenercluster_types.go]: the resource
    types, the reason constants, [getMessage] and the two status-update
    methods [UpdateConditionForReadyState] and
    [UpdateConditionForErrorState], together with the two helpers of
    [k8s.io/apimachinery/pkg/api/meta] the methods call.

    Go strings are [string]; named string types ([State],
    [ConditionReason], [ConditionType], [metav1.ConditionStatus]) stay
    open string types as in the source.  A slice is a [list] (the nil slice
    is [[]]).  The methods mutate the receiver through a pointer and may
    panic, so they are written in a small state-and-panic monad over the
    cluster object; the wall clock is read by the caller of the model and
    passed in as explicit readings. *)

From Stdlib Require Import String List ZArith Bool Lia.
Import ListNotations.
Local Open Scope string_scope.

(** ** [k8s.io/apimachinery/pkg/apis/meta/v1]: the types used *)

Module Metav1.

(** [metav1.Time] wraps [time.Time]; an instant is kept as the number of
    nanoseconds elapsed since the zero instant of [time.Time]. *)
Definition Time : Type := Z.
Bind Scope Z_scope with Time.

Definition IsZero (t : Time) : bool := Z.eqb t 0.

Definition ConditionStatus : Type := string.

Definition ConditionTrue : ConditionStatus := "True".
Definition ConditionFalse : ConditionStatus := "False".
Definition ConditionUnknown : ConditionStatus := "Unknown".

(** [metav1.Condition].  The Go field [Type] is spelled [Type_]. *)
Record Condition : Type := mkCondition {
  Type_ : string;
  Status : ConditionStatus;
  ObservedGeneration : Z;
  LastTransitionTime : Time;
  Reason : string;
  Message : string
}.

Record TypeMeta : Type := mkTypeMeta {
  Kind : string;
  APIVersion : string
}.

(** The part of [metav1.ObjectMeta] that identifies and versions an
    object; none of its fields is touched by the code below. *)
Record ObjectMeta : Type := mkObjectMeta {
  Name : string;
  Namespace : string;
  ResourceVersion : string;
  Generation : Z;
  Labels : list (string * string);
  Annotations : list (string * string)
}.

End Metav1.

(** ** [k8s.io/apimachinery/pkg/api/meta]: condition helpers *)

Module Meta.
Import Metav1.

(** Modelled from the spec: [meta.FindStatusCondition] belongs to the
    apimachinery dependency and is not part of the sources at hand.  It
    returns the first entry of the given type, if any (the condition list
    is "semantically a map keyed by type"). *)
Fixpoint FindStatusCondition (conditions : list Condition)
    (conditionType : string) : option Condition :=
  match conditions with
  | [] => None
  | c :: rest =>
      if String.eqb (Type_ c) conditionType then Some c
      else FindStatusCondition rest conditionType
  end.

(** Modelled from the spec: [meta.RemoveStatusCondition] belongs to the
    apimachinery dependency and is not part of the sources at hand.  It
    "removes any existing entry of [conditionType]": the remaining entries
    are kept in their order. *)
Fixpoint RemoveStatusCondition (conditions : list Condition)
    (conditionType : string) : list Condition :=
  match conditions with
  | [] => []
  | c :: rest =>
      if String.eqb (Type_ c) conditionType
      then RemoveStatusCondition rest conditionType
      else c :: RemoveStatusCondition rest conditionType
  end.

(** What the library does to an entry of the same type that is already
    there: the transition time moves only when the status value flips. *)
Definition overwrite (now' : Time) (existing newCondition : Condition)
    : Condition :=
  let flipped := negb (String.eqb (Status existing) (Status newCondition)) in
  {| Type_ := Type_ existing;
     Status := Status newCondition;
     ObservedGeneration := ObservedGeneration newCondition;
     LastTransitionTime :=
       if flipped
       then (if IsZero (LastTransitionTime newCondition)
             then now' else LastTransitionTime newCondition)
       else LastTransitionTime existing;
     Reason := Reason newCondition;
     Message := Message newCondition |}.

Fixpoint overwriteFirst (now' : Time) (conditions : list Condition)
    (newCondition : Condition) : list Condition :=
  match conditions with
  | [] => []
  | c :: rest =>
      if String.eqb (Type_ c) (Type_ newCondition)
      then overwrite now' c newCondition :: rest
      else c :: overwriteFirst now' rest newCondition
  end.

(** The entry as it is appended when no entry of its type exists: a zero
    transition time is replaced by a fresh clock reading [now']. *)
Definition stamped (now' : Time) (newCondition : Condition) : Condition :=
  if IsZero (LastTransitionTime newCondition)
  then {| Type_ := Type_ newCondition;
          Status := Status newCondition;
          ObservedGeneration := ObservedGeneration newCondition;
          LastTransitionTime := now';
          Reason := Reason newCondition;
          Message := Message newCondition |}
  else newCondition.

(** Modelled from the spec: [meta.SetStatusCondition] belongs to the
    apimachinery dependency and is not part of the sources at hand.  It
    "inserts the new entry"; the two branches follow the helper's documented
    contract: appended at the end when the type is absent (a zero transition
    time being set to the current time), written over the existing entry of
    that type otherwise (the transition time moving only on a status flip).
    [now'] is the reading of [time.Now()] the helper takes for itself. *)
Definition SetStatusCondition (now' : Time) (conditions : list Condition)
    (newCondition : Condition) : list Condition :=
  match FindStatusCondition conditions (Type_ newCondition) with
  | None => conditions ++ [stamped now' newCondition]
  | Some _ => overwriteFirst now' conditions newCondition
  end.

(** Number of entries of a type. *)
Definition countType (conditionType : string) (conditions : list Condition)
    : nat :=
  List.length
    (List.filter (fun c => String.eqb (Type_ c) conditionType) conditions).

End Meta.

(** ** [api/v1]: resource types *)

Import Metav1 Meta.

Record Shoot : Type := mkShoot { ShootName : string }.

Record Secret : Type := mkSecret {
  SecretName : string;
  SecretNamespace : string;
  SecretKey : string
}.

Record Kubeconfig : Type := mkKubeconfig { KubeconfigSecret : Secret }.

Record GardenerClusterSpec : Type := mkGardenerClusterSpec {
  SpecKubeconfig : Kubeconfig;
  SpecShoot : Shoot
}.

Definition State : Type := string.

Definition ReadyState : State := "Ready".
Definition ErrorState : State := "Error".

Definition ConditionReason : Type := string.

Definition ConditionReasonKubeconfigSecretCreated : ConditionReason :=
  "KubeconfigSecretCreated".
Definition ConditionReasonKubeconfigSecretRotated : ConditionReason :=
  "KubeconfigSecretRotated".
Definition ConditionReasonFailedToGetSecret : ConditionReason :=
  "FailedToCheckSecret".
Definition ConditionReasonFailedToCreateSecret : ConditionReason :=
  "ConditionReasonFailedToCreateSecret".
Definition ConditionReasonFailedToUpdateSecret : ConditionReason :=
  "FailedToUpdateSecret".
Definition ConditionReasonFailedToGetKubeconfig : ConditionReason :=
  "FailedToGetKubeconfig".

Definition ConditionType : Type := string.

Definition ConditionTypeKubeconfigManagement : ConditionType :=
  "KubeconfigManagement".

Record GardenerClusterStatus : Type := mkGardenerClusterStatus {
  StatusState : State;
  Conditions : list Condition
}.

Record GardenerCluster : Type := mkGardenerCluster {
  typeMeta : TypeMeta;
  objectMeta : ObjectMeta;
  Spec : GardenerClusterSpec;
  Status : GardenerClusterStatus
}.

(** ** Errors and panics *)

(** A non-nil value of Go's [error] interface whose method [Error()]
    returns, seen through the text it returns. *)
Record error : Type := mkError { Error : string }.

(** An argument of interface type [error].  The interface value is nil, or
    it holds a dynamic value, and then the call [Error()] is dispatched to
    that value's method: the method returns a text, or it panics (as it does
    for an interface that holds a nil pointer whose method reads its
    receiver).  An interface that holds a nil pointer is not nil. *)
Inductive errorValue : Type :=
| Returning (e : error)
| NilInterface
| Panicking (why : string).

Definition isNil (err : errorValue) : bool :=
  match err with
  | NilInterface => true
  | _ => false
  end.

(** Outcome of running a method on a cluster: it returns, or it panics and
    leaves the receiver as mutated so far. *)
Inductive result (A : Type) : Type :=
| Returned (a : A) (cluster : GardenerCluster)
| Panicked (reason : string) (cluster : GardenerCluster).

Arguments Returned {A} a cluster.
Arguments Panicked {A} reason cluster.

Definition M (A : Type) : Type := GardenerCluster -> result A.

Definition ret {A : Type} (a : A) : M A := fun cluster => Returned a cluster.

Definition bind {A B : Type} (m : M A) (k : A -> M B) : M B :=
  fun cluster =>
    match m cluster with
    | Returned a cluster' => k a cluster'
    | Panicked reason cluster' => Panicked reason cluster'
    end.

Definition panic {A : Type} (reason : string) : M A :=
  fun cluster => Panicked reason cluster.

Declare Scope gomonad_scope.
Delimit Scope gomonad_scope with go.
Notation "x <- m ;; k" := (bind m (fun x => k))
  (at level 61, m at next level, right associativity) : gomonad_scope.
Notation "m ;; k" := (bind m (fun _ => k))
  (at level 61, right associativity) : gomonad_scope.
Local Open Scope gomonad_scope.

(** The cluster a run ends with, whether it returned or panicked. *)
Definition finalCluster {A : Type} (r : result A) : GardenerCluster :=
  match r with
  | Returned _ cluster => cluster
  | Panicked _ cluster => cluster
  end.

(** [cluster.Status.State = s] *)
Definition assignState (s : State) : M unit :=
  fun cluster =>
    Returned tt
      {| typeMeta := typeMeta cluster;
         objectMeta := objectMeta cluster;
         Spec := Spec cluster;
         Status := {| StatusState := s;
                      Conditions := Conditions (Status cluster) |} |}.

(** A helper called on [&cluster.Status.Conditions]. *)
Definition onConditions (f : list Condition -> list Condition) : M unit :=
  fun cluster =>
    Returned tt
      {| typeMeta := typeMeta cluster;
         objectMeta := objectMeta cluster;
         Spec := Spec cluster;
         Status := {| StatusState := StatusState (Status cluster);
                      Conditions := f (Conditions (Status cluster)) |} |}.

Definition nilDereference : string :=
  "runtime error: invalid memory address or nil pointer dereference".

(** [error.Error()]: a method call on the nil interface value panics; on a
    non-nil value the method of the dynamic value runs, and its panic is the
    caller's. *)
Definition callError (err : errorValue) : M string :=
  match err with
  | Returning e => ret (Error e)
  | NilInterface => panic nilDereference
  | Panicking why => panic why
  end.

(** [fmt.Sprintf("%s Error: %s", a, b)] *)
Definition Sprintf_s_Error_s (a b : string) : string :=
  a ++ " Error: " ++ b.

(** ** The reason-to-message table *)

Definition getMessage (reason : ConditionReason) : string :=
  if String.eqb reason ConditionReasonKubeconfigSecretCreated then
    "Secret created successfully."
  else if String.eqb reason ConditionReasonKubeconfigSecretRotated then
    "Secret rotated successfully."
  else if String.eqb reason ConditionReasonFailedToCreateSecret then
    "Failed to create secret."
  else if String.eqb reason ConditionReasonFailedToUpdateSecret then
    "Failed to rotate secret."
  else if String.eqb reason ConditionReasonFailedToGetSecret then
    "Failed to get secret."
  else if String.eqb reason ConditionReasonFailedToGetKubeconfig then
    "Failed to get kubeconfig."
  else
    "Unknown condition".

(** The six reason constants the source declares. *)
Definition definedReasons : list ConditionReason :=
  [ ConditionReasonKubeconfigSecretCreated;
    ConditionReasonKubeconfigSecretRotated;
    ConditionReasonFailedToGetSecret;
    ConditionReasonFailedToCreateSecret;
    ConditionReasonFailedToUpdateSecret;
    ConditionReasonFailedToGetKubeconfig ].

(** ** The two update methods

    [now] is the reading returned by [metav1.Now()] in the method body,
    [now'] the one [meta.SetStatusCondition] would take by itself. *)

Definition UpdateConditionForReadyState (now now' : Time)
    (conditionType : ConditionType) (reason : ConditionReason)
    (conditionStatus : ConditionStatus) : M unit :=
  assignState ReadyState ;;
  let condition :=
    {| Type_ := conditionType;
       Metav1.Status := conditionStatus;
       ObservedGeneration := 0;
       LastTransitionTime := now;
       Reason := reason;
       Message := getMessage reason |} in
  onConditions (fun cs => RemoveStatusCondition cs (Type_ condition)) ;;
  onConditions (fun cs => SetStatusCondition now' cs condition).

Definition UpdateConditionForErrorState (now now' : Time)
    (conditionType : ConditionType) (reason : ConditionReason)
    (conditionStatus : ConditionStatus) (err : errorValue) : M unit :=
  assignState ErrorState ;;
  text <- callError err ;;
  let condition :=
    {| Type_ := conditionType;
       Metav1.Status := conditionStatus;
       ObservedGeneration := 0;
       LastTransitionTime := now;
       Reason := reason;
       Message := Sprintf_s_Error_s (getMessage reason) text |} in
  onConditions (fun cs => RemoveStatusCondition cs (Type_ condition)) ;;
  onConditions (fun cs => SetStatusCondition now' cs condition).

(** ** Sequences of calls *)

Inductive call : Type :=
| ReadyCall (now now' : Time) (conditionType : ConditionType)
    (reason : ConditionReason) (conditionStatus : ConditionStatus)
| ErrorCall (now now' : Time) (conditionType : ConditionType)
    (reason : ConditionReason) (conditionStatus : ConditionStatus)
    (err : errorValue).

Definition perform (c : call) : M unit :=
  match c with
  | ReadyCall now now' ty reason st =>
      UpdateConditionForReadyState now now' ty reason st
  | ErrorCall now now' ty reason st err =>
      UpdateConditionForErrorState now now' ty reason st err
  end.

(** Calls made one after the other; a panic ends the run. *)
Fixpoint run (calls : list call) : M unit :=
  match calls with
  | [] => ret tt
  | c :: rest => perform c ;; run rest
  end.

Definition callType (c : call) : ConditionType :=
  match c with
  | ReadyCall _ _ ty _ _ => ty
  | ErrorCall _ _ ty _ _ _ => ty
  end.

Definition callReason (c : call) : ConditionReason :=
  match c with
  | ReadyCall _ _ _ reason _ => reason
  | ErrorCall _ _ _ reason _ _ => reason
  end.

(** [true] when some call of the sequence names the type. *)
Definition called (conditionType : ConditionType) (calls : list call) : bool :=
  List.existsb (fun c => String.eqb (callType c) conditionType) calls.

(** A cluster with empty status, for examples. *)
Definition emptyCluster : GardenerCluster :=
  {| typeMeta := {| Kind := "GardenerCluster";
                    APIVersion := "infrastructuremanager.kyma-project.io/v1" |};
     objectMeta := {| Name := "cluster-1"; Namespace := "kcp-system";
                      ResourceVersion := "1"; Generation := 1;
                      Labels := []; Annotations := [] |};
     Spec := {| SpecKubeconfig :=
                  {| KubeconfigSecret :=
                       {| SecretName := "kubeconfig-cluster-1";
                          SecretNamespace := "kcp-system";
                          SecretKey := "config" |} |};
                SpecShoot := {| ShootName := "shoot-1" |} |};
     Status := {| StatusState := ""; Conditions := [] |} |}.

Definition withStatus (cluster : GardenerCluster) (s : State)
    (cs : list Condition) : GardenerCluster :=
  {| typeMeta := typeMeta cluster;
     objectMeta := objectMeta cluster;
     Spec := Spec cluster;
     Status := {| StatusState := s; Conditions := cs |} |}.

(** The condition literal each method builds. *)
Definition readyCondition (now : Time) (conditionType : ConditionType)
    (reason : ConditionReason) (conditionStatus : ConditionStatus)
    : Condition :=
  {| Type_ := conditionType;
     Metav1.Status := conditionStatus;
     ObservedGeneration := 0;
     LastTransitionTime := now;
     Reason := reason;
     Message := getMessage reason |}.

Definition errorCondition (now : Time) (conditionType : ConditionType)
    (reason : ConditionReason) (conditionStatus : ConditionStatus)
    (e : error) : Condition :=
  {| Type_ := conditionType;
     Metav1.Status := conditionStatus;
     ObservedGeneration := 0;
     LastTransitionTime := now;
     Reason := reason;
     Message := Sprintf_s_Error_s (getMessage reason) (Error e) |}.

(** The condition a call hands to the helpers, when it gets that far. *)
Definition callCondition (c : call) : option Condition :=
  match c with
  | ReadyCall now _ ty reason st => Some (readyCondition now ty reason st)
  | ErrorCall now _ ty reason st (Returning e) =>
      Some (errorCondition now ty reason st e)
  | ErrorCall _ _ _ _ _ _ => None
  end.

(** The clock reading that ends up in the entry a call writes. *)
Definition stampOf (now now' : Time) : Time :=
  if IsZero now then now' else now.

(** Reasons of a successful evaluation. *)
Definition nonErrorReason (reason : string) : bool :=
  String.eqb reason ConditionReasonKubeconfigSecretCreated
  || String.eqb reason ConditionReasonKubeconfigSecretRotated.

(** [State = Ready] goes with a non-error reason on the management
    condition. *)
Definition readyMeansNonError (cluster : GardenerCluster) : Prop :=
  StatusState (Status cluster) = ReadyState ->
  exists c,
    FindStatusCondition (Conditions (Status cluster))
      ConditionTypeKubeconfigManagement = Some c
    /\ nonErrorReason (Reason c) = true.

(** A call as the reconciler makes it: a Ready report names the management
    type and a non-error reason; an Error report is not restricted. *)
Definition readyCallsReportSuccess (c : call) : Prop :=
  match c with
  | ReadyCall _ _ ty reason _ =>
      ty = ConditionTypeKubeconfigManagement /\ nonErrorReason reason = true
  | ErrorCall _ _ _ _ _ _ => True
  end.

(** [s] occurs inside [t]. *)
Definition substringOf (s t : string) : Prop :=
  exists before after, t = (before ++ s ++ after)%string.

(** A call whose error argument, if it has one, gives its text: it is
    non-nil and its [Error()] method returns. *)
Definition errorGiven (c : call) : Prop :=
  match c with
  | ErrorCall _ _ _ _ _ NilInterface => False
  | ErrorCall _ _ _ _ _ (Panicking _) => False
  | _ => True
  end.

(** What a call panics with when its error argument gives no text. *)
Definition callPanic (c : call) : string :=
  match c with
  | ErrorCall _ _ _ _ _ (Panicking why) => why
  | _ => nilDereference
  end.

(** The panic of a method called through a nil pointer. *)
Definition nilPointerMethod : string :=
  "value method main.issuerError.Error called using nil *issuerError pointer".

(** The closed set of reason names as the interface description lists it;
    written from that list, to be compared with the constants above. *)
Definition listedReasonNames : list string :=
  [ "KubeconfigSecretCreated"; "KubeconfigSecretRotated";
    "FailedToCreateSecret"; "FailedToUpdateSecret";
    "FailedToGetSecret"; "FailedToGetKubeconfig" ].

Definition listedReason (reason : string) : bool :=
  List.existsb (String.eqb reason) listedReasonNames.

(** A cluster whose condition list already holds two entries of one type. *)
Definition twiceListedCluster : GardenerCluster :=
  withStatus emptyCluster ReadyState
    [ {| Type_ := "Other"; Metav1.Status := ConditionTrue;
         ObservedGeneration := 0; LastTransitionTime := 5;
         Reason := "First"; Message := "first" |};
      {| Type_ := "Other"; Metav1.Status := ConditionFalse;
         ObservedGeneration := 0; LastTransitionTime := 6;
         Reason := "Second"; Message := "second" |} ].

(** A cluster that already reports the management condition as [True]. *)
Definition reportedCluster : GardenerCluster :=
  withStatus emptyCluster ReadyState
    [ {| Type_ := ConditionTypeKubeconfigManagement;
         Metav1.Status := ConditionTrue;
         ObservedGeneration := 0; LastTransitionTime := 5;
         Reason := ConditionReasonKubeconfigSecretCreated;
         Message := "Secret created successfully." |} ].

(** A first issuance, a failed rotation and a successful one. *)
Definition issueFailRotate : list call :=
  [ ReadyCall 7 7 ConditionTypeKubeconfigManagement
      ConditionReasonKubeconfigSecretCreated ConditionTrue;
    ErrorCall 8 8 ConditionTypeKubeconfigManagement
      ConditionReasonFailedToGetKubeconfig ConditionFalse
      (Returning {| Error := "shoot not found" |});
    ReadyCall 9 9 ConditionTypeKubeconfigManagement
      ConditionReasonKubeconfigSecretRotated ConditionTrue ].

(** A failed issuance followed by a successful rotation. *)
Definition failThenRotate : list call :=
  [ ErrorCall 8 8 ConditionTypeKubeconfigManagement
      ConditionReasonFailedToGetKubeconfig ConditionFalse
      (Returning {| Error := "shoot not found" |});
    ReadyCall 9 9 ConditionTypeKubeconfigManagement
      ConditionReasonKubeconfigSecretRotated ConditionTrue ].

(** The aggregate state a call assigns. *)
Definition callState (c : call) : State :=
  match c with
  | ReadyCall _ _ _ _ _ => ReadyState
  | ErrorCall _ _ _ _ _ _ => ErrorState
  end.

(** The entry a call leaves in the condition list when it returns: the
    literal it builds, as the helper appends it. *)
Definition writtenCondition (c : call) : option Condition :=
  match c with
  | ReadyCall now now' ty reason st =>
      Some (stamped now' (readyCondition now ty reason st))
  | ErrorCall now now' ty reason st (Returning e) =>
      Some (stamped now' (errorCondition now ty reason st e))
  | ErrorCall _ _ _ _ _ _ => None
  end.

(** The last call of a sequence that names the type, if any. *)
Fixpoint lastCallOf (conditionType : ConditionType) (calls : list call)
    : option call :=
  match calls with
  | [] => None
  | c :: rest =>
      match lastCallOf conditionType rest with
      | Some d => Some d
      | None =>
          if String.eqb (callType c) conditionType then Some c else None
      end
  end.

(** The entries of every type but one, in their order. *)
Definition ofOtherTypes (conditionType : string) (conditions : list Condition)
    : list Condition :=
  List.filter (fun x => negb (String.eqb (Type_ x) conditionType)) conditions.

(** A cluster that reports two conditions, at generation 7. *)
Definition twoConditionCluster : GardenerCluster :=
  {| typeMeta := typeMeta emptyCluster;
     objectMeta := {| Name := "cluster-1"; Namespace := "kcp-system";
                      ResourceVersion := "41"; Generation := 7;
                      Labels := []; Annotations := [] |};
     Spec := Spec emptyCluster;
     Status :=
       {| StatusState := ReadyState;
          Conditions :=
            [ {| Type_ := ConditionTypeKubeconfigManagement;
                 Metav1.Status := ConditionTrue;
                 ObservedGeneration := 0; LastTransitionTime := 5;
                 Reason := ConditionReasonKubeconfigSecretCreated;
                 Message := "Secret created successfully." |};
              {| Type_ := "Other"; Metav1.Status := ConditionFalse;
                 ObservedGeneration := 0; LastTransitionTime := 6;
                 Reason := "Second"; Message := "second" |} ] |} |}.

Definition rotationFailed : call :=
  ErrorCall 8 8 ConditionTypeKubeconfigManagement
    ConditionReasonFailedToUpdateSecret ConditionFalse
    (Returning {| Error := "conflict" |}).

Definition rotationDone : call :=
  ReadyCall 9 9 ConditionTypeKubeconfigManagement
    ConditionReasonKubeconfigSecretRotated ConditionTrue.

Definition otherReported : call :=
  ReadyCall 10 10 "Other" "Third" ConditionUnknown.

(** ** Facts about strings *)

Lemma append_empty_r (s : string) : (s ++ "")%string = s.
Proof. induction s as [|a s IH]; simpl; [reflexivity | now rewrite IH]. Qed.

Lemma append_assoc (s t u : string) :
  ((s ++ t) ++ u)%string = (s ++ t ++ u)%string.
Proof. induction s as [|a s IH]; simpl; [reflexivity | now rewrite IH]. Qed.

Lemma substringOf_suffix (s t : string) : substringOf t (s ++ t).
Proof. exists s, ""%string. now rewrite append_empty_r. Qed.

(** ** Facts about the condition helpers *)

Section Helpers.

Lemma Find_Remove_same (cs : list Condition) (ty : string) :
  FindStatusCondition (RemoveStatusCondition cs ty) ty = None.
Proof.
  induction cs as [|c cs IH]; simpl; [reflexivity|].
  destruct (String.eqb (Type_ c) ty) eqn:E; simpl; [exact IH|].
  rewrite E. exact IH.
Qed.

Lemma Find_Remove_other (cs : list Condition) (ty ty' : string) :
  ty' <> ty ->
  FindStatusCondition (RemoveStatusCondition cs ty) ty'
  = FindStatusCondition cs ty'.
Proof.
  intros Hne. induction cs as [|c cs IH]; simpl; [reflexivity|].
  destruct (String.eqb (Type_ c) ty) eqn:E; simpl.
  - apply String.eqb_eq in E.
    destruct (String.eqb (Type_ c) ty') eqn:E'; [|exact IH].
    apply String.eqb_eq in E'. congruence.
  - destruct (String.eqb (Type_ c) ty'); [reflexivity|exact IH].
Qed.

Lemma Find_app (cs ds : list Condition) (ty : string) :
  FindStatusCondition (cs ++ ds) ty
  = match FindStatusCondition cs ty with
    | Some c => Some c
    | None => FindStatusCondition ds ty
    end.
Proof.
  induction cs as [|c cs IH]; simpl; [reflexivity|].
  destruct (String.eqb (Type_ c) ty); [reflexivity|exact IH].
Qed.

Lemma Type_stamped (now' : Time) (c : Condition) :
  Type_ (stamped now' c) = Type_ c.
Proof. unfold stamped. destruct (IsZero _); reflexivity. Qed.

Lemma Reason_stamped (now' : Time) (c : Condition) :
  Reason (stamped now' c) = Reason c.
Proof. unfold stamped. destruct (IsZero _); reflexivity. Qed.

Lemma Message_stamped (now' : Time) (c : Condition) :
  Message (stamped now' c) = Message c.
Proof. unfold stamped. destruct (IsZero _); reflexivity. Qed.

Lemma LastTransitionTime_stamped (now' : Time) (c : Condition) :
  LastTransitionTime (stamped now' c)
  = stampOf (LastTransitionTime c) now'.
Proof. unfold stamped, stampOf. destruct (IsZero _); reflexivity. Qed.

(** After the removal the helper always takes its append branch. *)
Lemma Set_after_Remove (now' : Time) (cs : list Condition) (c : Condition) :
  SetStatusCondition now' (RemoveStatusCondition cs (Type_ c)) c
  = (RemoveStatusCondition cs (Type_ c) ++ [stamped now' c])%list.
Proof. unfold SetStatusCondition. now rewrite Find_Remove_same. Qed.

Lemma Find_replaced_same (now' : Time) (cs : list Condition) (c : Condition) :
  FindStatusCondition
    (SetStatusCondition now' (RemoveStatusCondition cs (Type_ c)) c)
    (Type_ c)
  = Some (stamped now' c).
Proof.
  rewrite Set_after_Remove, Find_app, Find_Remove_same. simpl.
  now rewrite Type_stamped, String.eqb_refl.
Qed.

Lemma Find_replaced_other (now' : Time) (cs : list Condition) (c : Condition)
    (ty' : string) :
  ty' <> Type_ c ->
  FindStatusCondition
    (SetStatusCondition now' (RemoveStatusCondition cs (Type_ c)) c) ty'
  = FindStatusCondition cs ty'.
Proof.
  intros Hne.
  rewrite Set_after_Remove, Find_app, (Find_Remove_other _ _ _ Hne). simpl.
  rewrite Type_stamped.
  destruct (String.eqb (Type_ c) ty') eqn:E.
  - apply String.eqb_eq in E. congruence.
  - now destruct (FindStatusCondition cs ty').
Qed.

Lemma countType_app (ty : string) (cs ds : list Condition) :
  countType ty (cs ++ ds) = countType ty cs + countType ty ds.
Proof. unfold countType. now rewrite filter_app, length_app. Qed.

Lemma countType_Remove_same (ty : string) (cs : list Condition) :
  countType ty (RemoveStatusCondition cs ty) = 0.
Proof.
  induction cs as [|c cs IH]; simpl; [reflexivity|].
  destruct (String.eqb (Type_ c) ty) eqn:E; [exact IH|].
  unfold countType in *. simpl. now rewrite E.
Qed.

Lemma countType_Remove_other (ty ty' : string) (cs : list Condition) :
  ty' <> ty ->
  countType ty' (RemoveStatusCondition cs ty) = countType ty' cs.
Proof.
  intros Hne. unfold countType.
  induction cs as [|c cs IH]; simpl; [reflexivity|].
  destruct (String.eqb (Type_ c) ty) eqn:E; simpl.
  - apply String.eqb_eq in E.
    destruct (String.eqb (Type_ c) ty') eqn:E'; [|exact IH].
    apply String.eqb_eq in E'. congruence.
  - destruct (String.eqb (Type_ c) ty'); simpl; now rewrite IH.
Qed.

(** Remove-then-set leaves exactly one entry of the written type and does
    not change how many entries any other type has. *)
Lemma countType_replaced (now' : Time) (cs : list Condition) (c : Condition)
    (ty' : string) :
  countType ty'
    (SetStatusCondition now' (RemoveStatusCondition cs (Type_ c)) c)
  = if String.eqb (Type_ c) ty' then 1 else countType ty' cs.
Proof.
  rewrite Set_after_Remove, countType_app.
  destruct (String.eqb (Type_ c) ty') eqn:E.
  - apply String.eqb_eq in E. subst ty'.
    rewrite countType_Remove_same. unfold countType. simpl.
    now rewrite Type_stamped, String.eqb_refl.
  - rewrite countType_Remove_other.
    + unfold countType at 2. simpl. rewrite Type_stamped, E. simpl. lia.
    + intros ->. now rewrite String.eqb_refl in E.
Qed.

End Helpers.

(** ** What one call does *)

Section OneCall.

Variables (now now' : Time) (conditionType : ConditionType)
  (reason : ConditionReason) (conditionStatus : ConditionStatus).

Lemma Ready_returns (cluster : GardenerCluster) :
  UpdateConditionForReadyState now now' conditionType reason conditionStatus
    cluster
  = Returned tt
      (withStatus cluster ReadyState
         (SetStatusCondition now'
            (RemoveStatusCondition (Conditions (Status cluster))
               conditionType)
            (readyCondition now conditionType reason conditionStatus))).
Proof. reflexivity. Qed.

Lemma Error_returns (e : error) (cluster : GardenerCluster) :
  UpdateConditionForErrorState now now' conditionType reason conditionStatus
    (Returning e) cluster
  = Returned tt
      (withStatus cluster ErrorState
         (SetStatusCondition now'
            (RemoveStatusCondition (Conditions (Status cluster))
               conditionType)
            (errorCondition now conditionType reason conditionStatus e))).
Proof. reflexivity. Qed.

Lemma Error_panics (cluster : GardenerCluster) :
  UpdateConditionForErrorState now now' conditionType reason conditionStatus
    NilInterface cluster
  = Panicked nilDereference
      (withStatus cluster ErrorState (Conditions (Status cluster))).
Proof. reflexivity. Qed.

Lemma Error_panics_with (why : string) (cluster : GardenerCluster) :
  UpdateConditionForErrorState now now' conditionType reason conditionStatus
    (Panicking why) cluster
  = Panicked why
      (withStatus cluster ErrorState (Conditions (Status cluster))).
Proof. reflexivity. Qed.

End OneCall.

(** ** What a sequence of calls does *)

Section Runs.

Lemma perform_returns_condition (c : call) (cluster cluster' : GardenerCluster) :
  perform c cluster = Returned tt cluster' ->
  exists now' cond,
    callCondition c = Some cond
    /\ Type_ cond = callType c
    /\ Conditions (Status cluster')
       = SetStatusCondition now'
           (RemoveStatusCondition (Conditions (Status cluster)) (Type_ cond))
           cond.
Proof.
  destruct c as [now now' ty reason st | now now' ty reason st [e| |why]];
    simpl; intros H.
  - rewrite Ready_returns in H. inversion H; subst; clear H.
    exists now', (readyCondition now ty reason st). now repeat split.
  - rewrite Error_returns in H. inversion H; subst; clear H.
    exists now', (errorCondition now ty reason st e). now repeat split.
  - rewrite Error_panics in H. discriminate.
  - rewrite Error_panics_with in H. discriminate.
Qed.

Lemma perform_countType (c : call) (cluster cluster' : GardenerCluster)
    (ty : ConditionType) :
  perform c cluster = Returned tt cluster' ->
  countType ty (Conditions (Status cluster'))
  = if String.eqb (callType c) ty then 1
    else countType ty (Conditions (Status cluster)).
Proof.
  intros H.
  destruct (perform_returns_condition _ _ _ H) as (now' & cond & _ & Hty & ->).
  rewrite countType_replaced. now rewrite Hty.
Qed.

Lemma run_cons (c : call) (rest : list call) (cluster : GardenerCluster) :
  run (c :: rest) cluster
  = match perform c cluster with
    | Returned _ cluster1 => run rest cluster1
    | Panicked why cluster1 => Panicked why cluster1
    end.
Proof. reflexivity. Qed.

Lemma run_snoc (calls : list call) (c : call) (cluster : GardenerCluster) :
  run (calls ++ [c]) cluster
  = match run calls cluster with
    | Returned _ cluster1 => perform c cluster1
    | Panicked why cluster1 => Panicked why cluster1
    end.
Proof.
  revert cluster. induction calls as [|d calls IH]; intros cluster.
  - simpl. unfold bind, ret.
    destruct (perform c cluster) as [[] ?|]; reflexivity.
  - rewrite <- app_comm_cons, !run_cons.
    destruct (perform d cluster); [apply IH | reflexivity].
Qed.

(** With every error argument giving its text the whole sequence
    returns. *)
Lemma run_returns (calls : list call) (cluster : GardenerCluster) :
  Forall errorGiven calls ->
  exists cluster', run calls cluster = Returned tt cluster'.
Proof.
  intros H. revert cluster.
  induction H as [|c rest Hc _ IH]; intros cluster.
  - now exists cluster.
  - rewrite run_cons.
    destruct c as [now now' ty reason st | now now' ty reason st [e| |why]];
      [ | | destruct Hc | destruct Hc ]; unfold perform;
      [ rewrite Ready_returns | rewrite Error_returns ]; apply IH.
Qed.

Lemma run_countType (calls : list call) (cluster cluster' : GardenerCluster)
    (ty : ConditionType) :
  run calls cluster = Returned tt cluster' ->
  countType ty (Conditions (Status cluster'))
  = if called ty calls then 1
    else countType ty (Conditions (Status cluster)).
Proof.
  revert cluster. induction calls as [|c rest IH]; intros cluster H.
  - inversion H. reflexivity.
  - rewrite run_cons in H.
    destruct (perform c cluster) as [[] cluster1|] eqn:Hc; [|discriminate].
    rewrite (IH _ H). simpl.
    rewrite (perform_countType _ _ _ ty Hc).
    destruct (called ty rest); [now rewrite orb_true_r|].
    now rewrite orb_false_r.
Qed.

End Runs.

(** * The claims *)

(** C1, evaluated on the code: the constants behind the failed-to-get-secret
    and failed-to-create-secret reasons do not carry the listed names.  The
    first has the string value "FailedToCheckSecret", the second
    "ConditionReasonFailedToCreateSecret"; an error report made with the
    second stores that string as the condition's reason, which is not a
    member of the listed closed set. *)
Theorem reason_constants_off_the_listed_names :
  ConditionReasonFailedToGetSecret = "FailedToCheckSecret"
  /\ ConditionReasonFailedToGetSecret <> "FailedToGetSecret"
  /\ ConditionReasonFailedToCreateSecret = "ConditionReasonFailedToCreateSecret"
  /\ ConditionReasonFailedToCreateSecret <> "FailedToCreateSecret"
  /\ List.map listedReason definedReasons
     = [true; true; false; false; true; true]
  /\ exists cluster' c,
       UpdateConditionForErrorState 9 9 ConditionTypeKubeconfigManagement
         ConditionReasonFailedToCreateSecret ConditionFalse
         (Returning {| Error := "secrets is forbidden" |}) emptyCluster
       = Returned tt cluster'
       /\ FindStatusCondition (Conditions (Status cluster'))
            ConditionTypeKubeconfigManagement = Some c
       /\ Reason c = "ConditionReasonFailedToCreateSecret"
       /\ listedReason (Reason c) = false.
Proof.
  split; [reflexivity|].
  split; [apply String.eqb_neq; reflexivity|].
  split; [reflexivity|].
  split; [apply String.eqb_neq; reflexivity|].
  split; [reflexivity|].
  eexists; eexists.
  split; [apply Error_returns|].
  split; [cbv; reflexivity|].
  split; reflexivity.
Qed.

(** C2, as stated, fails: a condition list that starts with two entries of
    a type no call names still has both of them after a call. *)
Lemma untouched_duplicates_survive :
  exists cluster',
    run [ReadyCall 9 9 ConditionTypeKubeconfigManagement
           ConditionReasonKubeconfigSecretCreated ConditionTrue]
        twiceListedCluster
    = Returned tt cluster'
    /\ countType "Other" (Conditions (Status cluster')) = 2
    /\ ~ countType "Other" (Conditions (Status cluster')) <= 1.
Proof.
  eexists. split; [cbv; reflexivity|]. split; [reflexivity|].
  vm_compute. lia.
Qed.

(** C2, amended: for every initial status and every finite sequence of
    calls that all return, the resulting condition list holds exactly one
    entry of each type named by at least one call and as many entries of
    any other type as the initial list held; so it holds at most one entry
    per type whenever the initial list did. *)
Theorem one_condition_per_called_type (calls : list call)
    (cluster cluster' : GardenerCluster) :
  run calls cluster = Returned tt cluster' ->
  (forall ty,
     countType ty (Conditions (Status cluster'))
     = if called ty calls then 1
       else countType ty (Conditions (Status cluster)))
  /\ ((forall ty, countType ty (Conditions (Status cluster)) <= 1) ->
      forall ty, countType ty (Conditions (Status cluster')) <= 1).
Proof.
  intros Hrun.
  assert (Hcount := fun ty => run_countType calls cluster cluster' ty Hrun).
  split; [exact Hcount|].
  intros Hinit ty. rewrite Hcount.
  destruct (called ty calls); [lia | apply Hinit].
Qed.

Lemma one_condition_per_called_type_witness :
  exists cluster',
    run issueFailRotate reportedCluster = Returned tt cluster'
    /\ (forall ty,
          countType ty (Conditions (Status cluster'))
          = if called ty issueFailRotate then 1
            else countType ty (Conditions (Status reportedCluster)))
    /\ ((forall ty,
           countType ty (Conditions (Status reportedCluster)) <= 1) ->
        forall ty, countType ty (Conditions (Status cluster')) <= 1).
Proof.
  eexists. split; [cbv; reflexivity|].
  apply (one_condition_per_called_type issueFailRotate reportedCluster).
  reflexivity.
Defined.

(** C3, as stated, fails: an error argument that is not nil but whose
    [Error()] method panics (an interface holding a nil pointer) stops the
    method after the state assignment; no condition is written. *)
Lemma non_nil_error_without_condition :
  isNil (Panicking nilPointerMethod) = false
  /\ exists cluster',
       UpdateConditionForErrorState 9 9 ConditionTypeKubeconfigManagement
         ConditionReasonFailedToGetKubeconfig ConditionFalse
         (Panicking nilPointerMethod) emptyCluster
       = Panicked nilPointerMethod cluster'
       /\ StatusState (Status cluster') = ErrorState
       /\ FindStatusCondition (Conditions (Status cluster'))
            ConditionTypeKubeconfigManagement = None
       /\ Conditions (Status cluster') = [].
Proof.
  split; [reflexivity|].
  eexists. split; [apply Error_panics_with|]. now repeat split.
Qed.

(** C3, amended: for every condition type, reason, condition status and
    non-nil error whose [Error()] method returns,
    [UpdateConditionForErrorState] returns with [State = Error] and with one
    condition of that type, whose reason is the given reason and whose
    message is the reason's table sentence followed by " Error: " and the
    error's text; the error's text is a substring of the message. *)
Theorem UpdateConditionForErrorState_embeds_cause (now now' : Time)
    (conditionType : ConditionType) (reason : ConditionReason)
    (conditionStatus : ConditionStatus) (e : error)
    (cluster : GardenerCluster) :
  exists cluster' c,
    UpdateConditionForErrorState now now' conditionType reason
      conditionStatus (Returning e) cluster
    = Returned tt cluster'
    /\ StatusState (Status cluster') = ErrorState
    /\ FindStatusCondition (Conditions (Status cluster')) conditionType
       = Some c
    /\ countType conditionType (Conditions (Status cluster')) = 1
    /\ Type_ c = conditionType
    /\ Metav1.Status c = conditionStatus
    /\ Reason c = reason
    /\ Message c = (getMessage reason ++ " Error: " ++ Error e)%string
    /\ substringOf (Error e) (Message c).
Proof.
  set (cond := errorCondition now conditionType reason conditionStatus e).
  eexists; exists (stamped now' cond).
  split; [apply Error_returns|]. simpl.
  split; [reflexivity|].
  split; [apply (Find_replaced_same now' _ cond)|].
  split.
  { rewrite (countType_replaced now' _ cond). simpl.
    now rewrite String.eqb_refl. }
  split; [now rewrite Type_stamped|].
  split; [unfold stamped; now destruct (IsZero _)|].
  split; [now rewrite Reason_stamped|].
  rewrite Message_stamped. split; [reflexivity|].
  unfold cond, errorCondition, Sprintf_s_Error_s; cbn [Message].
  rewrite <- append_assoc. apply substringOf_suffix.
Qed.

(** Any single returning call that reports as the reconciler does leaves
    the status consistent, whatever the status was before. *)
Lemma perform_readyMeansNonError (c : call)
    (cluster cluster' : GardenerCluster) :
  readyCallsReportSuccess c ->
  perform c cluster = Returned tt cluster' ->
  readyMeansNonError cluster'.
Proof.
  destruct c as [now now' ty reason st | now now' ty reason st [e| |why]];
    unfold perform; intros Hc H.
  - destruct Hc as [-> Hreason].
    rewrite Ready_returns in H. inversion H; subst; clear H.
    intros _. eexists. split.
    + apply (Find_replaced_same now' _
               (readyCondition now ConditionTypeKubeconfigManagement reason st)).
    + now rewrite Reason_stamped.
  - rewrite Error_returns in H. inversion H; subst; clear H.
    intros Hstate. discriminate Hstate.
  - rewrite Error_panics in H. discriminate H.
  - rewrite Error_panics_with in H. discriminate H.
Qed.

(** C4, as stated, fails: the methods take the reason from the caller, so a
    Ready report may carry a failure reason. *)
Lemma ready_state_with_failure_reason :
  exists cluster' c,
    UpdateConditionForReadyState 9 9 ConditionTypeKubeconfigManagement
      ConditionReasonFailedToGetKubeconfig ConditionFalse emptyCluster
    = Returned tt cluster'
    /\ StatusState (Status cluster') = ReadyState
    /\ FindStatusCondition (Conditions (Status cluster'))
         ConditionTypeKubeconfigManagement = Some c
    /\ Reason c = "FailedToGetKubeconfig"
    /\ nonErrorReason (Reason c) = false
    /\ ~ readyMeansNonError cluster'.
Proof.
  eexists; eexists.
  split; [apply Ready_returns|].
  split; [reflexivity|].
  split; [cbv; reflexivity|].
  split; [reflexivity|].
  split; [reflexivity|].
  intros Hinv. destruct (Hinv eq_refl) as (c & Hfind & Hreason).
  cbv in Hfind. inversion Hfind; subst c. discriminate Hreason.
Qed.

(** C4, amended: in every status reached through a sequence of returning
    calls in which each [UpdateConditionForReadyState] call names the
    management type and one of the reasons KubeconfigSecretCreated,
    KubeconfigSecretRotated (the [UpdateConditionForErrorState] calls are
    arbitrary), provided the sequence is not empty or the initial status
    already satisfies the implication, [State = Ready] implies that the
    condition of the management type reports a non-error reason. *)
Theorem ready_implies_non_error_reason (calls : list call)
    (cluster cluster' : GardenerCluster) :
  calls <> [] \/ readyMeansNonError cluster ->
  Forall readyCallsReportSuccess calls ->
  run calls cluster = Returned tt cluster' ->
  readyMeansNonError cluster'.
Proof.
  intros Hstart Hcalls. revert cluster Hstart.
  induction Hcalls as [|c rest Hc _ IH]; intros cluster Hstart Hrun.
  - inversion Hrun; subst. destruct Hstart as [Hne|Hinv]; [congruence|exact Hinv].
  - rewrite run_cons in Hrun.
    destruct (perform c cluster) as [[] cluster1|] eqn:Hperf; [|discriminate].
    apply (IH cluster1); [right|exact Hrun].
    exact (perform_readyMeansNonError c cluster cluster1 Hc Hperf).
Qed.

Lemma ready_implies_non_error_reason_witness :
  exists cluster',
    (failThenRotate <> [] \/ readyMeansNonError emptyCluster)
    /\ Forall readyCallsReportSuccess failThenRotate
    /\ run failThenRotate emptyCluster = Returned tt cluster'
    /\ StatusState (Status cluster') = ReadyState
    /\ readyMeansNonError cluster'.
Proof.
  assert (Hstart : failThenRotate <> [] \/ readyMeansNonError emptyCluster)
    by (left; discriminate).
  assert (Hcalls : Forall readyCallsReportSuccess failThenRotate)
    by (repeat constructor).
  eexists.
  split; [exact Hstart|].
  split; [exact Hcalls|].
  split; [cbv; reflexivity|].
  split; [reflexivity|].
  apply (ready_implies_non_error_reason failThenRotate emptyCluster);
    [exact Hstart | exact Hcalls | reflexivity].
Defined.

(** The library helper alone keeps the transition time of an entry whose
    status value does not change; the removal in front of it is what makes
    the stamp unconditional. *)
Lemma SetStatusCondition_alone_keeps_time :
  map LastTransitionTime
    (SetStatusCondition 9 (Conditions (Status reportedCluster))
       (readyCondition 9 ConditionTypeKubeconfigManagement
          ConditionReasonKubeconfigSecretRotated ConditionTrue))
  = [5%Z].
Proof. reflexivity. Qed.

(** C5: every call to [UpdateConditionForReadyState] or
    [UpdateConditionForErrorState] that writes a condition stamps it with a
    clock reading of that call (the method's own reading [now]; the
    helper's reading [now'] if [now] were the zero instant), whatever the
    condition list held before, so also when an entry of the same type and
    the same status value was present. *)
Theorem lastTransitionTime_stamped_on_every_call (now now' : Time)
    (conditionType : ConditionType) (reason : ConditionReason)
    (conditionStatus : ConditionStatus) (e : error)
    (cluster : GardenerCluster) :
  (exists cluster' c,
     UpdateConditionForReadyState now now' conditionType reason
       conditionStatus cluster
     = Returned tt cluster'
     /\ FindStatusCondition (Conditions (Status cluster')) conditionType
        = Some c
     /\ LastTransitionTime c = if IsZero now then now' else now)
  /\ (exists cluster' c,
        UpdateConditionForErrorState now now' conditionType reason
          conditionStatus (Returning e) cluster
        = Returned tt cluster'
        /\ FindStatusCondition (Conditions (Status cluster')) conditionType
           = Some c
        /\ LastTransitionTime c = if IsZero now then now' else now).
Proof.
  split.
  - eexists; eexists. split; [apply Ready_returns|]. split.
    + apply (Find_replaced_same now' _
               (readyCondition now conditionType reason conditionStatus)).
    + now rewrite LastTransitionTime_stamped.
  - eexists; eexists. split; [apply Error_returns|]. split.
    + apply (Find_replaced_same now' _
               (errorCondition now conditionType reason conditionStatus e)).
    + now rewrite LastTransitionTime_stamped.
Qed.

(** The same on a status that already reports the same type with the same
    status value at time 5: the entry is re-stamped with 9. *)
Lemma same_status_is_restamped :
  exists cluster',
    UpdateConditionForReadyState 9 9 ConditionTypeKubeconfigManagement
      ConditionReasonKubeconfigSecretCreated ConditionTrue reportedCluster
    = Returned tt cluster'
    /\ map Metav1.Status (Conditions (Status reportedCluster)) = ["True"]
    /\ map Metav1.Status (Conditions (Status cluster')) = ["True"]
    /\ map LastTransitionTime (Conditions (Status reportedCluster)) = [5%Z]
    /\ map LastTransitionTime (Conditions (Status cluster')) = [9%Z].
Proof. eexists. split; [apply Ready_returns|]. now repeat split. Qed.

(** C6: every call to [UpdateConditionForReadyState] returns with the
    aggregate state set to Ready; every call to
    [UpdateConditionForErrorState] sets it to Error (it returns when the
    error gives its text, and the assignment has already happened when a
    nil error, or an error whose [Error()] panics, makes it panic); so after
    any call of either method the state is one of Ready, Error. *)
Theorem state_set_by_every_call (now now' : Time)
    (conditionType : ConditionType) (reason : ConditionReason)
    (conditionStatus : ConditionStatus) (cluster : GardenerCluster) :
  (exists cluster',
     UpdateConditionForReadyState now now' conditionType reason
       conditionStatus cluster
     = Returned tt cluster'
     /\ StatusState (Status cluster') = ReadyState)
  /\ (forall e : error,
      exists cluster',
        UpdateConditionForErrorState now now' conditionType reason
          conditionStatus (Returning e) cluster
        = Returned tt cluster'
        /\ StatusState (Status cluster') = ErrorState)
  /\ (forall err : errorValue,
        StatusState
          (Status
             (finalCluster
                (UpdateConditionForErrorState now now' conditionType reason
                   conditionStatus err cluster)))
        = ErrorState)
  /\ (forall c : call,
        let s := StatusState (Status (finalCluster (perform c cluster))) in
        s = ReadyState \/ s = ErrorState).
Proof.
  split; [eexists; split; [apply Ready_returns | reflexivity]|].
  split; [intros e; eexists; split; [apply Error_returns | reflexivity]|].
  split; [intros [e| |why]; reflexivity|].
  intros [n n' ty r st | n n' ty r st [e| |why]]; simpl; auto.
Qed.

(** C7: [getMessage] maps each of the six defined reasons to one sentence,
    as listed, and [UpdateConditionForReadyState] stores exactly that
    sentence as the message of the condition it writes. *)
Theorem getMessage_table :
  getMessage ConditionReasonKubeconfigSecretCreated
  = "Secret created successfully."
  /\ getMessage ConditionReasonKubeconfigSecretRotated
     = "Secret rotated successfully."
  /\ getMessage ConditionReasonFailedToCreateSecret
     = "Failed to create secret."
  /\ getMessage ConditionReasonFailedToUpdateSecret
     = "Failed to rotate secret."
  /\ getMessage ConditionReasonFailedToGetSecret = "Failed to get secret."
  /\ getMessage ConditionReasonFailedToGetKubeconfig
     = "Failed to get kubeconfig."
  /\ forall (now now' : Time) (conditionType : ConditionType)
       (reason : ConditionReason) (conditionStatus : ConditionStatus)
       (cluster : GardenerCluster),
     exists cluster' c,
       UpdateConditionForReadyState now now' conditionType reason
         conditionStatus cluster
       = Returned tt cluster'
       /\ FindStatusCondition (Conditions (Status cluster')) conditionType
          = Some c
       /\ Reason c = reason
       /\ Message c = getMessage reason.
Proof.
  repeat (split; [reflexivity|]).
  intros now now' conditionType reason conditionStatus cluster.
  eexists; eexists. split; [apply Ready_returns|]. split.
  - apply (Find_replaced_same now' _
             (readyCondition now conditionType reason conditionStatus)).
  - now rewrite Reason_stamped, Message_stamped.
Qed.

(** C8: a call to either method changes nothing but [Status.State] and
    [Status.Conditions]: the type and object metadata and the spec (shoot
    name, secret coordinates) of the cluster are the ones it had, whether
    the call returns or panics. *)
Theorem update_leaves_spec_and_metadata (c : call) (cluster : GardenerCluster) :
  let cluster' := finalCluster (perform c cluster) in
  typeMeta cluster' = typeMeta cluster
  /\ objectMeta cluster' = objectMeta cluster
  /\ Spec cluster' = Spec cluster
  /\ ShootName (SpecShoot (Spec cluster'))
     = ShootName (SpecShoot (Spec cluster))
  /\ KubeconfigSecret (SpecKubeconfig (Spec cluster'))
     = KubeconfigSecret (SpecKubeconfig (Spec cluster)).
Proof.
  destruct c as [n n' ty r st | n n' ty r st [e| |why]]; now repeat split.
Qed.

(** C9, as stated, fails: a non-nil error argument is not enough for the
    call to succeed; when the [Error()] method of the value panics, so does
    the call. *)
Lemma non_nil_error_may_panic :
  isNil (Panicking nilPointerMethod) = false
  /\ UpdateConditionForErrorState 9 9 ConditionTypeKubeconfigManagement
       ConditionReasonFailedToUpdateSecret ConditionFalse
       (Panicking nilPointerMethod) reportedCluster
     = Panicked nilPointerMethod
         (withStatus reportedCluster ErrorState
            (Conditions (Status reportedCluster)))
  /\ ~ exists cluster',
         UpdateConditionForErrorState 9 9 ConditionTypeKubeconfigManagement
           ConditionReasonFailedToUpdateSecret ConditionFalse
           (Panicking nilPointerMethod) reportedCluster
         = Returned tt cluster'.
Proof.
  split; [reflexivity|]. split; [apply Error_panics_with|].
  intros [cluster' H]. rewrite Error_panics_with in H. discriminate H.
Qed.

(** C9, amended: [UpdateConditionForErrorState] calls [Error()] on its error
    argument on every path, so it returns exactly when that call returns:
    with a non-nil error whose [Error()] returns, the method returns, having
    written a condition whose message ends with the error's text; there is
    no branch for an absent error, so with a nil error the call panics
    before any condition is built, and so it does, with the method's own
    panic, for a non-nil error whose [Error()] panics; in both cases the
    condition list is left as it was. *)
Theorem UpdateConditionForErrorState_requires_error (now now' : Time)
    (conditionType : ConditionType) (reason : ConditionReason)
    (conditionStatus : ConditionStatus) (cluster : GardenerCluster) :
  (forall err : errorValue,
     (exists cluster',
        UpdateConditionForErrorState now now' conditionType reason
          conditionStatus err cluster
        = Returned tt cluster')
     <-> exists e, err = Returning e)
  /\ (forall e : error,
      exists cluster' c,
        UpdateConditionForErrorState now now' conditionType reason
          conditionStatus (Returning e) cluster
        = Returned tt cluster'
        /\ FindStatusCondition (Conditions (Status cluster')) conditionType
           = Some c
        /\ Message c = Sprintf_s_Error_s (getMessage reason) (Error e))
  /\ (exists cluster',
        UpdateConditionForErrorState now now' conditionType reason
          conditionStatus NilInterface cluster
        = Panicked nilDereference cluster'
        /\ Conditions (Status cluster') = Conditions (Status cluster))
  /\ (forall why : string,
      exists cluster',
        UpdateConditionForErrorState now now' conditionType reason
          conditionStatus (Panicking why) cluster
        = Panicked why cluster'
        /\ Conditions (Status cluster') = Conditions (Status cluster)).
Proof.
  split.
  { intros err. split.
    - intros [cluster' H]. destruct err as [e| |why].
      + now exists e.
      + rewrite Error_panics in H. discriminate H.
      + rewrite Error_panics_with in H. discriminate H.
    - intros [e ->]. eexists. apply Error_returns. }
  split.
  { intros e. eexists; eexists. split; [apply Error_returns|]. split.
    - apply (Find_replaced_same now' _
               (errorCondition now conditionType reason conditionStatus e)).
    - now rewrite Message_stamped. }
  split.
  { eexists. split; [apply Error_panics | reflexivity]. }
  intros why. eexists. split; [apply Error_panics_with | reflexivity].
Qed.

Lemma getMessage_default (reason : ConditionReason) :
  ~ In reason definedReasons -> getMessage reason = "Unknown condition".
Proof.
  intros Hout. unfold getMessage.
  repeat match goal with
  | |- context [String.eqb reason ?k] =>
      destruct (String.eqb_spec reason k) as [Heq|_];
      [exfalso; apply Hout; rewrite Heq; simpl; tauto|]
  end.
  reflexivity.
Qed.

(** C10: [getMessage] is total on the open string type: a reason that is
    none of the six defined constants gets the default text "Unknown
    condition", and both update methods return for it (the error one for
    any error whose [Error()] returns), storing the reason and that text. *)
Theorem getMessage_unknown_reason (reason : ConditionReason)
    (Hout : ~ In reason definedReasons) :
  getMessage reason = "Unknown condition"
  /\ forall (now now' : Time) (conditionType : ConditionType)
       (conditionStatus : ConditionStatus) (cluster : GardenerCluster),
     (exists cluster' c,
        UpdateConditionForReadyState now now' conditionType reason
          conditionStatus cluster
        = Returned tt cluster'
        /\ FindStatusCondition (Conditions (Status cluster')) conditionType
           = Some c
        /\ Reason c = reason
        /\ Message c = "Unknown condition")
     /\ (forall e : error,
         exists cluster' c,
           UpdateConditionForErrorState now now' conditionType reason
             conditionStatus (Returning e) cluster
           = Returned tt cluster'
           /\ FindStatusCondition (Conditions (Status cluster'))
                conditionType
              = Some c
           /\ Reason c = reason
           /\ Message c
              = ("Unknown condition" ++ " Error: " ++ Error e)%string).
Proof.
  pose proof (getMessage_default reason Hout) as Hmsg.
  split; [exact Hmsg|].
  intros now now' conditionType conditionStatus cluster. split.
  - eexists; eexists. split; [apply Ready_returns|]. split.
    + apply (Find_replaced_same now' _
               (readyCondition now conditionType reason conditionStatus)).
    + rewrite Reason_stamped, Message_stamped. simpl. now rewrite Hmsg.
  - intros e. eexists; eexists. split; [apply Error_returns|]. split.
    + apply (Find_replaced_same now' _
               (errorCondition now conditionType reason conditionStatus e)).
    + rewrite Reason_stamped, Message_stamped. simpl.
      unfold Sprintf_s_Error_s. now rewrite Hmsg.
Qed.

Lemma getMessage_unknown_reason_witness :
  ~ In "SecretDeleted" definedReasons
  /\ getMessage "SecretDeleted" = "Unknown condition"
  /\ exists cluster',
       UpdateConditionForReadyState 9 9 ConditionTypeKubeconfigManagement
         "SecretDeleted" ConditionUnknown emptyCluster
       = Returned tt cluster'
       /\ map Message (Conditions (Status cluster')) = ["Unknown condition"].
Proof.
  assert (Hout : ~ In "SecretDeleted" definedReasons).
  { simpl. intros H.
    repeat (destruct H as [H|H]; [discriminate H|]). exact H. }
  split; [exact Hout|].
  split; [exact (proj1 (getMessage_unknown_reason "SecretDeleted" Hout))|].
  eexists. split; [apply Ready_returns | reflexivity].
Defined.


(** * Further properties of the update methods *)

Section CallShape.

Lemma Remove_as_filter (cs : list Condition) (ty : string) :
  RemoveStatusCondition cs ty = ofOtherTypes ty cs.
Proof.
  unfold ofOtherTypes. induction cs as [|c cs IH]; simpl; [reflexivity|].
  destruct (String.eqb (Type_ c) ty); simpl; now rewrite IH.
Qed.

Lemma Remove_app (cs ds : list Condition) (ty : string) :
  RemoveStatusCondition (cs ++ ds) ty
  = (RemoveStatusCondition cs ty ++ RemoveStatusCondition ds ty)%list.
Proof. rewrite !Remove_as_filter. apply filter_app. Qed.

Lemma Remove_Remove_same (cs : list Condition) (ty : string) :
  RemoveStatusCondition (RemoveStatusCondition cs ty) ty
  = RemoveStatusCondition cs ty.
Proof.
  induction cs as [|c cs IH]; simpl; [reflexivity|].
  destruct (String.eqb (Type_ c) ty) eqn:E; simpl; [exact IH|].
  now rewrite E, IH.
Qed.

Lemma Remove_Remove_swap (cs : list Condition) (ty ty' : string) :
  RemoveStatusCondition (RemoveStatusCondition cs ty) ty'
  = RemoveStatusCondition (RemoveStatusCondition cs ty') ty.
Proof.
  induction cs as [|c cs IH]; simpl; [reflexivity|].
  destruct (String.eqb (Type_ c) ty) eqn:E;
    destruct (String.eqb (Type_ c) ty') eqn:E'; simpl;
    rewrite ?E, ?E', IH; reflexivity.
Qed.

Lemma length_Remove (cs : list Condition) (ty : string) :
  List.length (RemoveStatusCondition cs ty) + countType ty cs
  = List.length cs.
Proof.
  unfold countType. induction cs as [|c cs IH]; simpl; [reflexivity|].
  destruct (String.eqb (Type_ c) ty); simpl; lia.
Qed.

Lemma writtenCondition_Type (c : call) (w : Condition) :
  writtenCondition c = Some w -> Type_ w = callType c.
Proof.
  destruct c as [n n' ty r st | n n' ty r st [e| |why]]; simpl; intros H;
    inversion H; subst; try apply Type_stamped.
Qed.

Lemma writtenCondition_given (c : call) :
  errorGiven c -> exists w, writtenCondition c = Some w.
Proof.
  destruct c as [n n' ty r st | n n' ty r st [e| |why]]; simpl; intros H;
    [eexists; reflexivity | eexists; reflexivity | destruct H | destruct H].
Qed.

(** One call, in full: the state is assigned, the entries of the call's type
    are dropped and the new entry is put at the end; without an error text
    to read, only the state is assigned. *)
Lemma perform_shape (c : call) (cluster : GardenerCluster) :
  perform c cluster
  = match writtenCondition c with
    | Some w =>
        Returned tt
          (withStatus cluster (callState c)
             (RemoveStatusCondition (Conditions (Status cluster))
                (callType c) ++ [w]))
    | None =>
        Panicked (callPanic c)
          (withStatus cluster ErrorState (Conditions (Status cluster)))
    end.
Proof.
  destruct c as [n n' ty r st | n n' ty r st [e| |why]]; unfold perform.
  - rewrite Ready_returns.
    now rewrite (Set_after_Remove n' _ (readyCondition n ty r st)).
  - rewrite Error_returns.
    now rewrite (Set_after_Remove n' _ (errorCondition n ty r st e)).
  - now rewrite Error_panics.
  - now rewrite Error_panics_with.
Qed.

Lemma run_single (c : call) (cluster : GardenerCluster) :
  run [c] cluster = perform c cluster.
Proof.
  rewrite run_cons. destruct (perform c cluster) as [[] ?|]; reflexivity.
Qed.

Lemma perform_returned (c : call) (cluster cluster' : GardenerCluster) :
  perform c cluster = Returned tt cluster' ->
  exists w,
    writtenCondition c = Some w
    /\ Type_ w = callType c
    /\ cluster'
       = withStatus cluster (callState c)
           (RemoveStatusCondition (Conditions (Status cluster))
              (callType c) ++ [w]).
Proof.
  rewrite perform_shape. destruct (writtenCondition c) as [w|] eqn:Hw;
    intros H; inversion H; subst.
  exists w. split; [reflexivity|]. split; [|reflexivity].
  now apply writtenCondition_Type.
Qed.

End CallShape.

(** X1: a returning call puts the entry it writes at the end of the
    condition list, behind the entries of all other types, which it keeps
    unchanged and in their order. *)
Theorem written_condition_goes_last (c : call)
    (cluster cluster' : GardenerCluster) :
  perform c cluster = Returned tt cluster' ->
  exists w,
    writtenCondition c = Some w
    /\ Type_ w = callType c
    /\ Conditions (Status cluster')
       = (ofOtherTypes (callType c) (Conditions (Status cluster)) ++ [w])%list
    /\ ofOtherTypes (callType c) (Conditions (Status cluster'))
       = ofOtherTypes (callType c) (Conditions (Status cluster)).
Proof.
  intros H. destruct (perform_returned _ _ _ H) as (w & Hw & Hty & ->).
  exists w. split; [exact Hw|]. split; [exact Hty|]. simpl.
  rewrite <- !Remove_as_filter. split; [reflexivity|].
  rewrite Remove_app, Remove_Remove_same. simpl.
  rewrite Hty, String.eqb_refl. apply app_nil_r.
Qed.

Lemma written_condition_goes_last_witness :
  exists cluster' w,
    perform rotationDone twoConditionCluster = Returned tt cluster'
    /\ writtenCondition rotationDone = Some w
    /\ map Type_ (Conditions (Status twoConditionCluster))
       = ["KubeconfigManagement"; "Other"]
    /\ map Type_ (Conditions (Status cluster'))
       = ["Other"; "KubeconfigManagement"].
Proof.
  assert (Hrun : perform rotationDone twoConditionCluster
                 = Returned tt (finalCluster
                                  (perform rotationDone twoConditionCluster)))
    by reflexivity.
  destruct (written_condition_goes_last _ _ _ Hrun) as (w & Hw & _ & Hcs & _).
  exists (finalCluster (perform rotationDone twoConditionCluster)), w.
  split; [exact Hrun|]. split; [exact Hw|]. split; [reflexivity|].
  reflexivity.
Defined.

(** X2: of two consecutive returning calls that name the same condition
    type only the second shows: the pair leaves the cluster exactly as the
    second call alone would (so repeating a call changes nothing). *)
Theorem later_call_of_same_type_wins (c1 c2 : call)
    (cluster : GardenerCluster) :
  callType c1 = callType c2 ->
  errorGiven c1 ->
  errorGiven c2 ->
  run [c1; c2] cluster = run [c2] cluster.
Proof.
  intros Hty H1 H2.
  destruct (writtenCondition_given c1 H1) as (w1 & Hw1).
  destruct (writtenCondition_given c2 H2) as (w2 & Hw2).
  pose proof (writtenCondition_Type _ _ Hw1) as Ht1.
  rewrite run_cons, (perform_shape c1), Hw1, !run_single.
  rewrite !perform_shape, Hw2. f_equal.
  unfold withStatus. cbn [typeMeta objectMeta Spec Status Conditions].
  f_equal. f_equal.
  rewrite Remove_app, <- Hty, Remove_Remove_same. simpl.
  rewrite Ht1, String.eqb_refl. now rewrite app_nil_r.
Qed.

Lemma later_call_of_same_type_wins_witness :
  callType rotationFailed = callType rotationDone
  /\ run [rotationFailed; rotationDone] twoConditionCluster
     = run [rotationDone] twoConditionCluster
  /\ run [rotationDone; rotationDone] twoConditionCluster
     = run [rotationDone] twoConditionCluster.
Proof.
  split; [reflexivity|]. split.
  - apply (later_call_of_same_type_wins rotationFailed rotationDone);
      [reflexivity | exact I | exact I].
  - apply (later_call_of_same_type_wins rotationDone rotationDone);
      [reflexivity | exact I | exact I].
Defined.

(** X3: two returning calls that name different condition types leave the
    same entries in either order; only the position of the two written
    entries at the end of the list is swapped, so every type is looked up to
    the same entry. *)
Theorem calls_of_distinct_types_commute (c1 c2 : call)
    (cluster : GardenerCluster) :
  callType c1 <> callType c2 ->
  errorGiven c1 ->
  errorGiven c2 ->
  exists a b kept w1 w2,
    run [c1; c2] cluster = Returned tt a
    /\ run [c2; c1] cluster = Returned tt b
    /\ writtenCondition c1 = Some w1
    /\ writtenCondition c2 = Some w2
    /\ Conditions (Status a) = (kept ++ [w1; w2])%list
    /\ Conditions (Status b) = (kept ++ [w2; w1])%list
    /\ forall ty,
         FindStatusCondition (Conditions (Status a)) ty
         = FindStatusCondition (Conditions (Status b)) ty.
Proof.
  intros Hne H1 H2.
  destruct (writtenCondition_given c1 H1) as (w1 & Hw1).
  destruct (writtenCondition_given c2 H2) as (w2 & Hw2).
  pose proof (writtenCondition_Type _ _ Hw1) as Ht1.
  pose proof (writtenCondition_Type _ _ Hw2) as Ht2.
  assert (E12 : String.eqb (Type_ w1) (callType c2) = false)
    by (rewrite Ht1; now apply String.eqb_neq).
  assert (E21 : String.eqb (Type_ w2) (callType c1) = false)
    by (rewrite Ht2; apply String.eqb_neq; congruence).
  set (kept := RemoveStatusCondition
                 (RemoveStatusCondition (Conditions (Status cluster))
                    (callType c1)) (callType c2)).
  eexists; eexists; exists kept, w1, w2.
  split.
  { rewrite run_cons, (perform_shape c1), Hw1, run_single, perform_shape, Hw2.
    reflexivity. }
  split.
  { rewrite run_cons, (perform_shape c2), Hw2, run_single, perform_shape, Hw1.
    reflexivity. }
  split; [exact Hw1|]. split; [exact Hw2|]. simpl.
  assert (Ha : (RemoveStatusCondition
                  (RemoveStatusCondition (Conditions (Status cluster))
                     (callType c1) ++ [w1]) (callType c2) ++ [w2])%list
               = (kept ++ [w1; w2])%list).
  { rewrite Remove_app. simpl. rewrite E12, <- app_assoc. reflexivity. }
  assert (Hb : (RemoveStatusCondition
                  (RemoveStatusCondition (Conditions (Status cluster))
                     (callType c2) ++ [w2]) (callType c1) ++ [w1])%list
               = (kept ++ [w2; w1])%list).
  { rewrite Remove_app. simpl. rewrite E21, <- app_assoc.
    unfold kept. now rewrite Remove_Remove_swap. }
  rewrite Ha, Hb. split; [reflexivity|]. split; [reflexivity|].
  intros ty. rewrite !Find_app.
  destruct (FindStatusCondition kept ty); [reflexivity|]. simpl.
  destruct (String.eqb (Type_ w1) ty) eqn:F1;
    destruct (String.eqb (Type_ w2) ty) eqn:F2; try reflexivity.
  apply String.eqb_eq in F1, F2. congruence.
Qed.

Lemma calls_of_distinct_types_commute_witness :
  callType rotationDone <> callType otherReported
  /\ map Type_
       (Conditions
          (Status
             (finalCluster
                (run [rotationDone; otherReported] twoConditionCluster))))
     = ["KubeconfigManagement"; "Other"]
  /\ map Type_
       (Conditions
          (Status
             (finalCluster
                (run [otherReported; rotationDone] twoConditionCluster))))
     = ["Other"; "KubeconfigManagement"]
  /\ forall ty,
       FindStatusCondition
         (Conditions
            (Status
               (finalCluster
                  (run [rotationDone; otherReported] twoConditionCluster))))
         ty
       = FindStatusCondition
           (Conditions
              (Status
                 (finalCluster
                    (run [otherReported; rotationDone] twoConditionCluster))))
           ty.
Proof.
  assert (Hne : callType rotationDone <> callType otherReported)
    by (apply String.eqb_neq; reflexivity).
  split; [exact Hne|]. split; [reflexivity|]. split; [reflexivity|].
  destruct (calls_of_distinct_types_commute rotationDone otherReported
              twoConditionCluster Hne I I)
    as (a & b & kept & w1 & w2 & Ha & Hb & _ & _ & _ & _ & Hfind).
  rewrite Ha, Hb. exact Hfind.
Defined.

(** X4: after a sequence of returning calls the aggregate state is the one
    of the last call: Ready after [UpdateConditionForReadyState], Error
    after [UpdateConditionForErrorState], whatever came before. *)
Theorem state_follows_last_call (calls : list call) (c : call)
    (cluster cluster' : GardenerCluster) :
  run (calls ++ [c]) cluster = Returned tt cluster' ->
  StatusState (Status cluster') = callState c.
Proof.
  rewrite run_snoc.
  destruct (run calls cluster) as [[] cluster1|]; [|discriminate].
  intros H. destruct (perform_returned _ _ _ H) as (w & _ & _ & ->).
  reflexivity.
Qed.

Lemma state_follows_last_call_witness :
  StatusState
    (Status (finalCluster
               (run ([rotationDone; otherReported] ++ [rotationFailed])
                  twoConditionCluster)))
  = ErrorState
  /\ StatusState
       (Status (finalCluster
                  (run ([rotationFailed; otherReported] ++ [rotationDone])
                     twoConditionCluster)))
     = ReadyState.
Proof.
  split.
  - apply (state_follows_last_call [rotationDone; otherReported]
             rotationFailed twoConditionCluster).
    reflexivity.
  - apply (state_follows_last_call [rotationFailed; otherReported]
             rotationDone twoConditionCluster).
    reflexivity.
Defined.

(** X5: after a sequence of returning calls, a condition type is looked up
    to the entry written by the last call that named it, and to the entry
    of the initial list when no call named it. *)
Theorem last_call_of_a_type_is_reported (calls : list call)
    (cluster cluster' : GardenerCluster) (ty : ConditionType) :
  run calls cluster = Returned tt cluster' ->
  FindStatusCondition (Conditions (Status cluster')) ty
  = match lastCallOf ty calls with
    | Some c => writtenCondition c
    | None => FindStatusCondition (Conditions (Status cluster)) ty
    end.
Proof.
  revert cluster. induction calls as [|c rest IH]; intros cluster H.
  - inversion H. reflexivity.
  - rewrite run_cons in H.
    destruct (perform c cluster) as [[] cluster1|] eqn:Hc; [|discriminate].
    rewrite (IH _ H). simpl.
    destruct (lastCallOf ty rest); [reflexivity|].
    destruct (perform_returned _ _ _ Hc) as (w & Hw & Hty & ->). simpl.
    rewrite Find_app.
    destruct (String.eqb (callType c) ty) eqn:E.
    + apply String.eqb_eq in E. subst ty.
      rewrite Find_Remove_same. simpl.
      now rewrite Hty, String.eqb_refl.
    + assert (Hne : ty <> callType c)
        by (intros ->; now rewrite String.eqb_refl in E).
      rewrite (Find_Remove_other _ _ _ Hne). simpl. rewrite Hty, E.
      now destruct (FindStatusCondition (Conditions (Status cluster)) ty).
Qed.

Lemma last_call_of_a_type_is_reported_witness :
  exists cluster',
    run [rotationFailed; rotationDone; otherReported] twoConditionCluster
    = Returned tt cluster'
    /\ FindStatusCondition (Conditions (Status cluster'))
         ConditionTypeKubeconfigManagement
       = writtenCondition rotationDone
    /\ option_map Reason
         (FindStatusCondition (Conditions (Status cluster'))
            ConditionTypeKubeconfigManagement)
       = Some "KubeconfigSecretRotated".
Proof.
  assert (Hrun :
    run [rotationFailed; rotationDone; otherReported] twoConditionCluster
    = Returned tt
        (finalCluster
           (run [rotationFailed; rotationDone; otherReported]
              twoConditionCluster))) by reflexivity.
  eexists. split; [exact Hrun|]. split.
  - exact (last_call_of_a_type_is_reported _ _ _
             ConditionTypeKubeconfigManagement Hrun).
  - reflexivity.
Defined.

(** X6: a returning call drops all the entries of its type and adds one:
    the list grows by one entry when the type was absent, keeps its length
    when the type had one entry, and is never empty afterwards. *)
Theorem conditions_length_after_call (c : call)
    (cluster cluster' : GardenerCluster) :
  perform c cluster = Returned tt cluster' ->
  List.length (Conditions (Status cluster'))
  + countType (callType c) (Conditions (Status cluster))
  = List.length (Conditions (Status cluster)) + 1
  /\ Conditions (Status cluster') <> [].
Proof.
  intros H. destruct (perform_returned _ _ _ H) as (w & _ & _ & ->). simpl.
  rewrite length_app. simpl.
  pose proof (length_Remove (Conditions (Status cluster)) (callType c)).
  split; [lia|].
  intros Hnil. apply (f_equal (@List.length _)) in Hnil.
  rewrite length_app in Hnil. simpl in Hnil. lia.
Qed.

Lemma conditions_length_after_call_witness :
  exists grown kept,
    perform rotationDone emptyCluster = Returned tt grown
    /\ List.length (Conditions (Status emptyCluster)) = 0
    /\ List.length (Conditions (Status grown)) = 1
    /\ perform rotationDone twoConditionCluster = Returned tt kept
    /\ List.length (Conditions (Status twoConditionCluster)) = 2
    /\ List.length (Conditions (Status kept)) = 2.
Proof.
  assert (H0 : perform rotationDone emptyCluster
               = Returned tt (finalCluster (perform rotationDone emptyCluster)))
    by reflexivity.
  assert (H2 : perform rotationDone twoConditionCluster
               = Returned tt
                   (finalCluster (perform rotationDone twoConditionCluster)))
    by reflexivity.
  pose proof (proj1 (conditions_length_after_call _ _ _ H0)) as L0.
  pose proof (proj1 (conditions_length_after_call _ _ _ H2)) as L2.
  eexists; eexists.
  split; [exact H0|]. split; [reflexivity|].
  split; [change (countType (callType rotationDone)
                    (Conditions (Status emptyCluster))) with 0 in L0;
          simpl in L0 |- *; lia|].
  split; [exact H2|]. split; [reflexivity|].
  change (countType (callType rotationDone)
            (Conditions (Status twoConditionCluster))) with 1 in L2.
  simpl in L2 |- *. lia.
Defined.

(** X7: [getMessage] answers with the default text "Unknown condition"
    exactly for the reasons that are none of the six defined constants: no
    defined reason is reported as unknown. *)
Theorem getMessage_default_iff_undefined (reason : ConditionReason) :
  getMessage reason = "Unknown condition" <-> ~ In reason definedReasons.
Proof.
  split.
  - intros Hmsg Hin. simpl in Hin.
    repeat (destruct Hin as [Hin|Hin];
            [subst reason; vm_compute in Hmsg; discriminate Hmsg|]).
    exact Hin.
  - apply getMessage_default.
Qed.

(** X8: on the six defined reasons [getMessage] is one-to-one: two defined
    reasons with the same sentence are the same reason. *)
Theorem getMessage_injective_on_defined (r1 r2 : ConditionReason) :
  In r1 definedReasons ->
  In r2 definedReasons ->
  getMessage r1 = getMessage r2 ->
  r1 = r2.
Proof.
  simpl. intros H1 H2 Hmsg.
  repeat (destruct H1 as [H1|H1]; [|]); try contradiction; subst r1;
    repeat (destruct H2 as [H2|H2]; [|]); try contradiction; subst r2;
    try reflexivity; vm_compute in Hmsg; discriminate Hmsg.
Qed.

Lemma getMessage_injective_on_defined_witness :
  In ConditionReasonFailedToUpdateSecret definedReasons
  /\ getMessage ConditionReasonFailedToUpdateSecret
     = getMessage "FailedToUpdateSecret"
  /\ ConditionReasonFailedToUpdateSecret = "FailedToUpdateSecret".
Proof.
  assert (Hin : In ConditionReasonFailedToUpdateSecret definedReasons)
    by (simpl; tauto).
  split; [exact Hin|]. split; [reflexivity|].
  exact (getMessage_injective_on_defined
           ConditionReasonFailedToUpdateSecret "FailedToUpdateSecret"
           Hin Hin eq_refl).
Defined.

(** X9: the entry a returning call writes carries observed generation 0
    and the condition status the caller passed, whatever the generation of
    the object and whichever aggregate state the call assigns. *)
Theorem observed_generation_not_recorded (c : call)
    (cluster cluster' : GardenerCluster) :
  perform c cluster = Returned tt cluster' ->
  exists w,
    FindStatusCondition (Conditions (Status cluster')) (callType c) = Some w
    /\ ObservedGeneration w = 0%Z
    /\ Metav1.Status w
       = match c with
         | ReadyCall _ _ _ _ st => st
         | ErrorCall _ _ _ _ st _ => st
         end.
Proof.
  intros H. destruct (perform_returned _ _ _ H) as (w & Hw & Hty & ->).
  exists w. simpl. split.
  - rewrite Find_app, Find_Remove_same. simpl.
    now rewrite Hty, String.eqb_refl.
  - destruct c as [n n' ty r st | n n' ty r st [e| |why]]; simpl in Hw;
      inversion Hw; subst; unfold stamped;
      destruct (IsZero _); split; reflexivity.
Qed.

Lemma observed_generation_not_recorded_witness :
  exists cluster' w,
    perform rotationDone twoConditionCluster = Returned tt cluster'
    /\ Generation (objectMeta cluster') = 7%Z
    /\ FindStatusCondition (Conditions (Status cluster'))
         ConditionTypeKubeconfigManagement = Some w
    /\ ObservedGeneration w = 0%Z.
Proof.
  assert (Hrun : perform rotationDone twoConditionCluster
                 = Returned tt
                     (finalCluster (perform rotationDone twoConditionCluster)))
    by reflexivity.
  destruct (observed_generation_not_recorded _ _ _ Hrun)
    as (w & Hfind & Hgen & _).
  eexists; exists w.
  split; [exact Hrun|]. split; [reflexivity|]. split; assumption.
Defined.
